(** * Notes API: a shallow embedding of the FastAPI/SQLAlchemy notes backend

    Modelled sources:
    - [app/models/note.py]      : the [Note] row.
    - [app/schemas/note.py]     : the pydantic request bodies [NoteCreate],
                                  [NoteUpdate] (field validation).
    - [app/routers/notes.py]    : [create_note], [get_user_notes], [get_note],
                                  [update_note], [delete_note].
    - [app/routers/auth.py]     : [login_user].
    - [app/exceptions.py]       : [http_exception_handler],
                                  [validation_exception_handler].

    The database is a list of rows in insertion order; a handler is a
    function from the store to an outcome and a new store.  Every handler
    body of [app/routers/notes.py] is an [async def] without any [await], so
    on the single event loop started by [run.py] each body runs as one
    uninterrupted step: the request loop below runs whole handler bodies one
    after another, in any order the loop picks.  Commits do not fail in
    this model: the [except Exception] branches answering [500] are not
    represented. *)

From Stdlib Require Import String Ascii ZArith List Bool Lia Permutation.
Import ListNotations.
Open Scope string_scope.

(** ** Data model *)

(** A row of the [notes] table ([app/models/note.py]).  Timestamps are the
    values of [func.now()] at the time of the statement, as naturals. *)
Record Note := mkNote {
  note_id : nat;
  title : string;
  content : option string;
  user_id : nat;
  version : Z;
  created_at : nat;
  updated_at : nat
}.

(** A row of the [users] table. *)
Record User := mkUser {
  uid : nat;
  username : string;
  password_hash : string
}.

Record DB := mkDB {
  notes : list Note;
  users : list User
}.

(** ** JSON request bodies *)

(** The JSON values a request body member takes in this model: strings,
    integers and [null] (booleans, floats, arrays and objects are not
    represented). *)
Inductive json :=
| JStr (s : string)
| JInt (z : Z)
| JNull.

Definition body := list (string * json).

(** Member lookup in a decoded JSON object; as with Python's [json.loads],
    a later duplicate key wins. *)
Fixpoint body_get (k : string) (b : body) : option json :=
  match b with
  | [] => None
  | (k', v) :: rest =>
      match body_get k rest with
      | Some v' => Some v'
      | None => if String.eqb k k' then Some v else None
      end
  end.

(** One entry of the [errors] list built by [validation_exception_handler]:
    ["field"] (pydantic's [loc] joined by [" -> "]), ["message"] (its
    [msg]) and ["type"] (its [type]). *)
Record ErrorItem := mkErrorItem { err_loc : string; err_msg : string; err_type : string }.

Inductive field_result (A : Type) :=
| FOk (a : A)
| FErr (e : ErrorItem).
Arguments FOk {A} a.
Arguments FErr {A} e.

(** *** Text as pydantic sees it

    A [string] holds the UTF-8 encoding of a Python [str] (the decoded JSON
    string), so it is valid UTF-8.  Pydantic measures [min_length] and
    [max_length] in Unicode characters, i.e. code points. *)
Fixpoint utf8_decode (l : list ascii) : list N :=
  match l with
  | [] => []
  | a :: r =>
      let n := N_of_ascii a in
      if (n <? 128)%N then n :: utf8_decode r
      else if (n <? 224)%N then
        match r with
        | b :: r' => ((n - 192) * 64 + (N_of_ascii b - 128))%N :: utf8_decode r'
        | [] => [n]
        end
      else if (n <? 240)%N then
        match r with
        | b :: c :: r' =>
            ((n - 224) * 4096 + (N_of_ascii b - 128) * 64
             + (N_of_ascii c - 128))%N :: utf8_decode r'
        | _ => [n]
        end
      else
        match r with
        | b :: c :: d :: r' =>
            ((n - 240) * 262144 + (N_of_ascii b - 128) * 4096
             + (N_of_ascii c - 128) * 64 + (N_of_ascii d - 128))%N
            :: utf8_decode r'
        | _ => [n]
        end
  end.

Definition code_points (s : string) : list N := utf8_decode (list_ascii_of_string s).

(** [len(s)] of the Python [str]. *)
Definition char_length (s : string) : nat := length (code_points s).

(** [title: str = Field(..., min_length=1, max_length=200)]; the messages
    and types are pydantic's [missing], [string_too_short],
    [string_too_long] and [string_type] errors. *)
Definition validate_title (j : option json) : field_result string :=
  match j with
  | None => FErr (mkErrorItem "body -> title" "Field required" "missing")
  | Some (JStr s) =>
      if (char_length s <? 1)%nat
      then FErr (mkErrorItem "body -> title"
                   "String should have at least 1 character" "string_too_short")
      else if (200 <? char_length s)%nat
      then FErr (mkErrorItem "body -> title"
                   "String should have at most 200 characters" "string_too_long")
      else FOk s
  | Some _ => FErr (mkErrorItem "body -> title" "Input should be a valid string" "string_type")
  end.

(** [content: Optional[str] = Field(None)] *)
Definition validate_content (j : option json) : field_result (option string) :=
  match j with
  | None => FOk None
  | Some JNull => FOk None
  | Some (JStr s) => FOk (Some s)
  | Some _ => FErr (mkErrorItem "body -> content" "Input should be a valid string" "string_type")
  end.

(** *** Pydantic's lax [int] from a string

    pydantic-core's [str_as_int]: the string is stripped of leading and
    trailing Unicode white space; longer than 4300 bytes it is refused;
    otherwise it is an optional sign followed by decimal digits, or such a
    string followed by ['.'] and only zeros.  (The arbitrary-precision
    parser used from 19 bytes on may also accept [_] separators; that case
    is not modelled.) *)
Definition is_white_space (cp : N) : bool :=
  ((9 <=? cp) && (cp <=? 13))%N || (cp =? 32)%N || (cp =? 133)%N
  || (cp =? 160)%N || (cp =? 5760)%N || ((8192 <=? cp) && (cp <=? 8202))%N
  || (cp =? 8232)%N || (cp =? 8233)%N || (cp =? 8239)%N || (cp =? 8287)%N
  || (cp =? 12288)%N.

Fixpoint drop_white (l : list N) : list N :=
  match l with
  | cp :: r => if is_white_space cp then drop_white r else l
  | [] => []
  end.

Definition trim (l : list N) : list N := rev (drop_white (rev (drop_white l))).

(** Number of bytes of the UTF-8 encoding. *)
Definition utf8_width (cp : N) : nat :=
  if (cp <? 128)%N then 1 else if (cp <? 2048)%N then 2
  else if (cp <? 65536)%N then 3 else 4.

Definition byte_length (l : list N) : nat :=
  fold_right (fun cp n => utf8_width cp + n)%nat 0%nat l.

Definition is_digit (cp : N) : bool := ((48 <=? cp) && (cp <=? 57))%N.

Fixpoint digits_value (acc : Z) (l : list N) : option Z :=
  match l with
  | [] => Some acc
  | cp :: r =>
      if is_digit cp then digits_value (10 * acc + Z.of_N (cp - 48))%Z r else None
  end.

(** Rust's [str::parse] for integers: an optional sign and at least one digit. *)
Definition parse_int (l : list N) : option Z :=
  match l with
  | cp :: (_ :: _) as r =>
      if (cp =? 43)%N then digits_value 0 r
      else if (cp =? 45)%N then option_map Z.opp (digits_value 0 r)
      else digits_value 0 l
  | _ :: [] => digits_value 0 l
  | [] => None
  end.

(** [strip_decimal_zeros]: cut at the first ['.'] when only zeros follow. *)
Fixpoint strip_decimal_zeros (l : list N) : option (list N) :=
  match l with
  | [] => None
  | cp :: r =>
      if (cp =? 46)%N then (if forallb (N.eqb 48) r then Some [] else None)
      else option_map (cons cp) (strip_decimal_zeros r)
  end.

Inductive int_result :=
| IntOk (z : Z)
| IntParsing
| IntParsingSize.

Definition str_as_int (s : string) : int_result :=
  let t := trim (code_points s) in
  if (4300 <? byte_length t)%nat then IntParsingSize
  else match parse_int t with
       | Some z => IntOk z
       | None =>
           match strip_decimal_zeros t with
           | Some p => match parse_int p with Some z => IntOk z | None => IntParsing end
           | None => IntParsing
           end
       end.

(** [version: int = Field(...)] in pydantic's lax mode: a JSON integer, or a
    JSON string that [str_as_int] accepts. *)
Definition validate_version (j : option json) : field_result Z :=
  match j with
  | None => FErr (mkErrorItem "body -> version" "Field required" "missing")
  | Some (JInt z) => FOk z
  | Some (JStr s) =>
      match str_as_int s with
      | IntOk z => FOk z
      | IntParsing =>
          FErr (mkErrorItem "body -> version"
                  "Input should be a valid integer, unable to parse string as an integer"
                  "int_parsing")
      | IntParsingSize =>
          FErr (mkErrorItem "body -> version"
                  "Unable to parse input string as an integer, exceeded maximum size"
                  "int_parsing_size")
      end
  | Some JNull => FErr (mkErrorItem "body -> version" "Input should be a valid integer" "int_type")
  end.

Definition errs_of {A} (r : field_result A) : list ErrorItem :=
  match r with FOk _ => [] | FErr e => [e] end.

Record NoteCreate := mkNoteCreate {
  nc_title : string;
  nc_content : option string
}.

Record NoteUpdate := mkNoteUpdate {
  nu_title : string;
  nu_content : option string;
  nu_version : Z
}.

(** Pydantic validates every declared field, collects all errors, and
    ignores members the model does not declare. *)
Definition parse_note_create (b : body) : list ErrorItem + NoteCreate :=
  match validate_title (body_get "title" b),
        validate_content (body_get "content" b) with
  | FOk t, FOk c => inr (mkNoteCreate t c)
  | rt, rc => inl (errs_of rt ++ errs_of rc)%list
  end.

Definition parse_note_update (b : body) : list ErrorItem + NoteUpdate :=
  match validate_title (body_get "title" b),
        validate_content (body_get "content" b),
        validate_version (body_get "version" b) with
  | FOk t, FOk c, FOk v => inr (mkNoteUpdate t c v)
  | rt, rc, rv => inl (errs_of rt ++ errs_of rc ++ errs_of rv)%list
  end.

(** ** Responses and exceptions ([app/exceptions.py]) *)

Record HTTPException := mkHTTPException {
  exc_status : Z;
  exc_detail : string;
  exc_headers : list (string * string);
  exc_error_code : option string  (* set only by [CustomHTTPException] *)
}.

Definition http_exc (st : Z) (d : string) : HTTPException :=
  mkHTTPException st d [] None.

Inductive RespBody :=
| NoteBody (n : Note)
| NotesBody (ns : list Note)
| MsgBody (m : string)
| TokenBody (access_token token_type : string)
| ErrBody (detail : string) (error_code : option string) (errors : list ErrorItem).

Record Response := mkResponse {
  status_code : Z;
  resp_body : RespBody
}.

(** A handler either returns (with the route's success status) or raises. *)
Inductive Outcome :=
| Ret (st : Z) (b : RespBody)
| Raise (e : HTTPException).

(** [http_exception_handler]: [{detail, error_code?}]; the exception's
    headers are not copied into the [JSONResponse]. *)
Definition http_exception_handler (e : HTTPException) : Response :=
  mkResponse (exc_status e)
    (ErrBody (exc_detail e)
       match exc_error_code e with
       | Some c => if String.eqb c "" then None else Some c
       | None => None
       end []).

(** [validation_exception_handler], registered for [RequestValidationError]. *)
Definition validation_exception_handler (errs : list ErrorItem) : Response :=
  mkResponse 400 (ErrBody "Validation error" (Some "VALIDATION_ERROR") errs).

Definition render (o : Outcome) : Response :=
  match o with
  | Ret st b => mkResponse st b
  | Raise e => http_exception_handler e
  end.

(** ** Note handlers ([app/routers/notes.py]) *)

(** [db.query(Note).filter(Note.id == note_id, Note.user_id == current_user.id).first()] *)
Definition query_first (caller nid : nat) (ns : list Note) : option Note :=
  find (fun n => Nat.eqb (note_id n) nid && Nat.eqb (user_id n) caller) ns.

(** The id the database assigns to the [INTEGER PRIMARY KEY] column of a new
    row: one more than the largest id present (SQLite's rowid choice). *)
Definition next_note_id (ns : list Note) : nat :=
  S (fold_right Nat.max 0 (map note_id ns)).

Definition not_found_exc : HTTPException := http_exc 404 "Note not found".

Definition conflict_exc : HTTPException :=
  http_exc 409 "Note was modified by another process. Please refresh and try again.".

(** [create_note]: [Note(title=..., content=..., user_id=current_user.id)],
    [version] by its column default 1, both timestamps by
    [server_default=func.now()]; [db.refresh] reads the stored row back. *)
Definition create_note (caller : nat) (note_data : NoteCreate) (now : nat) (db : DB)
  : Outcome * DB :=
  let db_note := mkNote (next_note_id (notes db)) (nc_title note_data)
                   (nc_content note_data) caller 1 now now in
  (Ret 201 (NoteBody db_note), mkDB (notes db ++ [db_note]) (users db)).

(** [get_user_notes] *)
Definition get_user_notes (caller : nat) (db : DB) : Outcome * DB :=
  (Ret 200 (NotesBody (filter (fun n => Nat.eqb (user_id n) caller) (notes db))), db).

(** [get_note] *)
Definition get_note (caller nid : nat) (db : DB) : Outcome * DB :=
  match query_first caller nid (notes db) with
  | None => (Raise not_found_exc, db)
  | Some n => (Ret 200 (NoteBody n), db)
  end.

(** [UPDATE notes SET ... WHERE notes.id = :id] issued by the commit. *)
Definition write_row (n' : Note) (ns : list Note) : list Note :=
  map (fun r => if Nat.eqb (note_id r) (note_id n') then n' else r) ns.

(** [update_note]: fetch scoped by owner, compare versions, assign the
    fields, [note.version += 1], commit ([updated_at] by [onupdate]). *)
Definition update_note (caller nid : nat) (note_update : NoteUpdate) (now : nat) (db : DB)
  : Outcome * DB :=
  match query_first caller nid (notes db) with
  | None => (Raise not_found_exc, db)
  | Some note =>
      if negb (Z.eqb (version note) (nu_version note_update))
      then (Raise conflict_exc, db)
      else
        let note' := mkNote (note_id note) (nu_title note_update)
                       (nu_content note_update) (user_id note)
                       (version note + 1) (created_at note) now in
        (Ret 200 (NoteBody note'), mkDB (write_row note' (notes db)) (users db))
  end.

(** [DELETE FROM notes WHERE notes.id = :id] *)
Definition delete_row (nid : nat) (ns : list Note) : list Note :=
  filter (fun r => negb (Nat.eqb (note_id r) nid)) ns.

(** [delete_note] *)
Definition delete_note (caller nid : nat) (db : DB) : Outcome * DB :=
  match query_first caller nid (notes db) with
  | None => (Raise not_found_exc, db)
  | Some note =>
      (Ret 200 (MsgBody "Note deleted successfully"),
       mkDB (delete_row (note_id note) (notes db)) (users db))
  end.

(** ** Requests and the event loop *)

(** An authenticated request: the caller is the id [get_current_user]
    resolved; bodies are the decoded JSON objects. *)
Inductive Request :=
| ReqCreate (caller : nat) (b : body)
| ReqList (caller : nat)
| ReqGet (caller nid : nat)
| ReqUpdate (caller nid : nat) (b : body)
| ReqDelete (caller nid : nat).

(** FastAPI validates the body against the endpoint's pydantic model before
    the handler runs; a failure goes to [validation_exception_handler]. *)
Definition dispatch (now : nat) (db : DB) (r : Request) : Response * DB :=
  match r with
  | ReqCreate c b =>
      match parse_note_create b with
      | inl errs => (validation_exception_handler errs, db)
      | inr nc => let '(o, db') := create_note c nc now db in (render o, db')
      end
  | ReqList c => let '(o, db') := get_user_notes c db in (render o, db')
  | ReqGet c nid => let '(o, db') := get_note c nid db in (render o, db')
  | ReqUpdate c nid b =>
      match parse_note_update b with
      | inl errs => (validation_exception_handler errs, db)
      | inr nu => let '(o, db') := update_note c nid nu now db in (render o, db')
      end
  | ReqDelete c nid => let '(o, db') := delete_note c nid db in (render o, db')
  end.

(** The event loop runs the handler bodies of the scheduled requests one
    after another; [now] advances by one per request. *)
Fixpoint run_loop (now : nat) (db : DB) (sched : list Request) : list Response * DB :=
  match sched with
  | [] => ([], db)
  | r :: rest =>
      let '(resp, db1) := dispatch now db r in
      let '(resps, db2) := run_loop (S now) db1 rest in
      (resp :: resps, db2)
  end.

(** Row lookup by primary key, used to observe the stored state. *)
Definition row (db : DB) (nid : nat) : option Note :=
  find (fun n => Nat.eqb (note_id n) nid) (notes db).

(** ** Login ([app/routers/auth.py]) *)

Record UserLogin := mkUserLogin { login_username : string; login_password : string }.

Section Login.
(** The password hashing and token services are opaque collaborators. *)
Variable verify_password : string -> string -> bool.
Variable create_access_token : nat -> string -> string.

Definition unauthorized_exc : HTTPException :=
  mkHTTPException 401 "Incorrect username or password"
    [("WWW-Authenticate", "Bearer")] None.

(** [login_user] *)
Definition login_user (creds : UserLogin) (db : DB) : Outcome :=
  match find (fun u => String.eqb (username u) (login_username creds)) (users db) with
  | None => Raise unauthorized_exc
  | Some u =>
      if negb (verify_password (login_password creds) (password_hash u))
      then Raise unauthorized_exc
      else Ret 200 (TokenBody (create_access_token (uid u) (username u)) "bearer")
  end.

Definition login_response (creds : UserLogin) (db : DB) : Response :=
  render (login_user creds db).
End Login.

(** * Properties *)

(** ** Lemmas on the row-level operations *)

Lemma row_some (db : DB) (nid : nat) (n : Note) :
  row db nid = Some n -> In n (notes db) /\ note_id n = nid.
Proof.
  unfold row; intros H. apply find_some in H as [Hin Heq].
  split; [exact Hin | apply Nat.eqb_eq; exact Heq].
Qed.

Lemma query_first_some (c nid : nat) (ns : list Note) (n : Note) :
  query_first c nid ns = Some n -> In n ns /\ note_id n = nid /\ user_id n = c.
Proof.
  unfold query_first; intros H. apply find_some in H as [Hin Heq].
  apply andb_true_iff in Heq as [H1 H2].
  repeat split; [exact Hin | apply Nat.eqb_eq; assumption | apply Nat.eqb_eq; assumption].
Qed.

(** The owner-scoped query finds the row stored under [nid] when that row
    belongs to the caller, and nothing when no row has id [nid]. *)
Lemma query_first_owner (c nid : nat) (ns : list Note) (n : Note) :
  find (fun r => Nat.eqb (note_id r) nid) ns = Some n -> user_id n = c ->
  query_first c nid ns = Some n.
Proof.
  unfold query_first; induction ns as [|r ns IH]; simpl; [discriminate|].
  intros Hf Hown. destruct (Nat.eqb (note_id r) nid) eqn:E; simpl.
  - injection Hf as Hrn. subst r. rewrite Hown, Nat.eqb_refl. reflexivity.
  - apply IH; assumption.
Qed.

Lemma query_first_absent (c nid : nat) (ns : list Note) :
  find (fun r => Nat.eqb (note_id r) nid) ns = None -> query_first c nid ns = None.
Proof.
  unfold query_first; induction ns as [|r ns IH]; simpl; [reflexivity|].
  intros Hf. destruct (Nat.eqb (note_id r) nid) eqn:E; simpl; [discriminate|].
  apply IH; exact Hf.
Qed.

(** With unique primary keys, a row owned by someone else is invisible to
    the owner-scoped query. *)
Lemma query_first_other (c nid : nat) (ns : list Note) (n : Note) :
  NoDup (map note_id ns) ->
  find (fun r => Nat.eqb (note_id r) nid) ns = Some n -> user_id n <> c ->
  query_first c nid ns = None.
Proof.
  unfold query_first; induction ns as [|r ns IH]; simpl; [discriminate|].
  intros Hnd Hf Hown. inversion Hnd as [|? ? Hnotin Hnd']; subst.
  destruct (Nat.eqb (note_id r) nid) eqn:E; simpl.
  - injection Hf as Hrn. subst r. apply Nat.eqb_neq in Hown. rewrite Hown. simpl.
    apply Nat.eqb_eq in E. subst nid.
    apply query_first_absent.
    destruct (find (fun r0 => Nat.eqb (note_id r0) (note_id n)) ns) as [m|] eqn:Hm;
      [|reflexivity].
    exfalso. apply find_some in Hm as [Hin Heq]. apply Nat.eqb_eq in Heq.
    apply Hnotin. rewrite <- Heq. apply in_map. exact Hin.
  - apply IH; assumption.
Qed.

Lemma find_write_row_same (n' : Note) (ns : list Note) :
  (exists r, In r ns /\ note_id r = note_id n') ->
  find (fun n => Nat.eqb (note_id n) (note_id n')) (write_row n' ns) = Some n'.
Proof.
  induction ns as [|r ns IH]; intros [r0 [Hin Hid]]; [destruct Hin|].
  simpl. destruct (Nat.eqb (note_id r) (note_id n')) eqn:E; simpl.
  - rewrite Nat.eqb_refl. reflexivity.
  - rewrite E. apply IH. destruct Hin as [<-|Hin].
    + rewrite Hid, Nat.eqb_refl in E. discriminate.
    + exists r0; split; assumption.
Qed.

Lemma find_write_row_other (n' : Note) (ns : list Note) (m : nat) :
  note_id n' <> m ->
  find (fun n => Nat.eqb (note_id n) m) (write_row n' ns) =
  find (fun n => Nat.eqb (note_id n) m) ns.
Proof.
  intros Hne; induction ns as [|r ns IH]; simpl; [reflexivity|].
  destruct (Nat.eqb (note_id r) (note_id n')) eqn:E; simpl.
  - apply Nat.eqb_eq in E.
    assert (Hm : Nat.eqb (note_id n') m = false) by (apply Nat.eqb_neq; exact Hne).
    rewrite Hm. rewrite E, Hm. exact IH.
  - destruct (Nat.eqb (note_id r) m); [reflexivity | exact IH].
Qed.


Lemma find_delete_row_other (nid m : nat) (ns : list Note) :
  nid <> m ->
  find (fun n => Nat.eqb (note_id n) m) (delete_row nid ns) =
  find (fun n => Nat.eqb (note_id n) m) ns.
Proof.
  intros Hne; induction ns as [|r ns IH]; simpl; [reflexivity|].
  destruct (Nat.eqb (note_id r) nid) eqn:E; simpl.
  - apply Nat.eqb_eq in E. subst nid.
    assert (Hm : Nat.eqb (note_id r) m = false) by (apply Nat.eqb_neq; exact Hne).
    rewrite Hm. exact IH.
  - destruct (Nat.eqb (note_id r) m); [reflexivity | exact IH].
Qed.

(** A successful update stores the new row under the same id; the row is
    the one the handler returns. *)
Lemma update_note_ok (c nid : nat) (nu : NoteUpdate) (now : nat) (db : DB) (n : Note) :
  row db nid = Some n -> user_id n = c -> version n = nu_version nu ->
  update_note c nid nu now db =
  (Ret 200 (NoteBody (mkNote nid (nu_title nu) (nu_content nu) c (version n + 1)
                        (created_at n) now)),
   mkDB (write_row (mkNote nid (nu_title nu) (nu_content nu) c (version n + 1)
                       (created_at n) now) (notes db)) (users db)).
Proof.
  intros Hrow Hown Hv. pose proof (row_some _ _ _ Hrow) as [_ Hid].
  unfold update_note. rewrite (query_first_owner c nid (notes db) n Hrow Hown).
  rewrite Hv, Z.eqb_refl. simpl. rewrite Hid, Hown. reflexivity.
Qed.

Lemma update_note_conflict (c nid : nat) (nu : NoteUpdate) (now : nat) (db : DB) (n : Note) :
  row db nid = Some n -> user_id n = c -> version n <> nu_version nu ->
  update_note c nid nu now db = (Raise conflict_exc, db).
Proof.
  intros Hrow Hown Hv.
  unfold update_note. rewrite (query_first_owner c nid (notes db) n Hrow Hown).
  apply Z.eqb_neq in Hv. rewrite Hv. reflexivity.
Qed.

Lemma row_write_row_same (db : DB) (nid : nat) (n n' : Note) :
  row db nid = Some n -> note_id n' = nid ->
  find (fun r => Nat.eqb (note_id r) nid) (write_row n' (notes db)) = Some n'.
Proof.
  intros Hrow Hid. pose proof (row_some _ _ _ Hrow) as [Hin Hid0].
  rewrite <- Hid. apply find_write_row_same. exists n. split; [exact Hin | congruence].
Qed.

(** ** C1: two updates presenting the same version *)

(** The row an accepted update writes. *)
Definition updated_row (nid c : nat) (n : Note) (u : NoteUpdate) (now : nat) : Note :=
  mkNote nid (nu_title u) (nu_content u) c (version n + 1) (created_at n) now.

Lemma two_updates_in_order (now : nat) (db : DB) (c nid : nat) (n : Note)
  (ba bb : body) (ua ub : NoteUpdate) :
  row db nid = Some n -> user_id n = c ->
  parse_note_update ba = inr ua -> parse_note_update bb = inr ub ->
  nu_version ua = version n -> nu_version ub = version n ->
  let '(resps, db') := run_loop now db [ReqUpdate c nid ba; ReqUpdate c nid bb] in
  resps = [mkResponse 200 (NoteBody (updated_row nid c n ua now));
           http_exception_handler conflict_exc] /\
  row db' nid = Some (updated_row nid c n ua now).
Proof.
  intros Hrow Hown Ha Hb Hva Hvb.
  pose proof (row_some _ _ _ Hrow) as [_ Hid].
  simpl. rewrite Ha. rewrite (update_note_ok c nid ua now db n Hrow Hown (eq_sym Hva)).
  simpl. rewrite Hb.
  set (n' := mkNote nid (nu_title ua) (nu_content ua) c (version n + 1) (created_at n) now).
  set (db1 := mkDB (write_row n' (notes db)) (users db)).
  assert (Hrow1 : row db1 nid = Some n')
    by (unfold row, db1; simpl; apply (row_write_row_same db nid n n' Hrow); reflexivity).
  rewrite (update_note_conflict c nid ub (S now) db1 n' Hrow1 eq_refl).
  - simpl. split; [reflexivity | exact Hrow1].
  - simpl. rewrite Hvb. lia.
Qed.

(** C1: two [Update] calls of the owner on an existing note, both presenting
    the stored version, are run by the event loop in either order; exactly
    one succeeds, the other gets [409], and the stored note is the winner's
    payload with [version = expected_version + 1]. *)
Theorem concurrent_updates_one_wins (now : nat) (db : DB) (c nid : nat) (n : Note)
  (b1 b2 : body) (u1 u2 : NoteUpdate) (sched : list Request) :
  row db nid = Some n -> user_id n = c ->
  parse_note_update b1 = inr u1 -> parse_note_update b2 = inr u2 ->
  nu_version u1 = version n -> nu_version u2 = version n ->
  Permutation [ReqUpdate c nid b1; ReqUpdate c nid b2] sched ->
  let '(resps, db') := run_loop now db sched in
  exists uw,
    (uw = u1 \/ uw = u2) /\
    map status_code resps = [200%Z; 409%Z] /\
    resps = [mkResponse 200 (NoteBody (mkNote nid (nu_title uw) (nu_content uw) c
                                        (version n + 1) (created_at n) now));
             http_exception_handler conflict_exc] /\
    row db' nid = Some (mkNote nid (nu_title uw) (nu_content uw) c
                          (version n + 1) (created_at n) now).
Proof.
  intros Hrow Hown H1 H2 Hv1 Hv2 Hperm.
  apply Permutation_length_2_inv in Hperm as [-> | ->].
  - pose proof (two_updates_in_order now db c nid n b1 b2 u1 u2
                  Hrow Hown H1 H2 Hv1 Hv2) as Hrun.
    destruct (run_loop now db _) as [resps db'].
    destruct Hrun as [-> Hrow']. exists u1. repeat split; auto.
  - pose proof (two_updates_in_order now db c nid n b2 b1 u2 u1
                  Hrow Hown H2 H1 Hv2 Hv1) as Hrun.
    destruct (run_loop now db _) as [resps db'].
    destruct Hrun as [-> Hrow']. exists u2. repeat split; auto.
Qed.

(** ** C2: versions start at 1 and move by exactly one *)

Lemma next_note_id_gt (ns : list Note) (r : Note) :
  In r ns -> (note_id r < next_note_id ns)%nat.
Proof.
  unfold next_note_id; induction ns as [|r' ns IH]; simpl; [tauto|].
  intros [<-|Hin]; [lia|]. specialize (IH Hin). lia.
Qed.

Lemma find_fresh_append (ns : list Note) (n0 : Note) :
  note_id n0 = next_note_id ns ->
  find (fun r => Nat.eqb (note_id r) (note_id n0)) (ns ++ [n0]) = Some n0.
Proof.
  intros Hid. assert (Hlt : forall r, In r ns -> (note_id r < note_id n0)%nat)
    by (intros r Hin; rewrite Hid; apply next_note_id_gt; exact Hin).
  clear Hid. induction ns as [|r ns IH]; simpl.
  - rewrite Nat.eqb_refl. reflexivity.
  - assert (Hr : Nat.eqb (note_id r) (note_id n0) = false)
      by (apply Nat.eqb_neq; specialize (Hlt r (or_introl eq_refl)); lia).
    rewrite Hr. apply IH. intros r' Hin. apply Hlt. right. exact Hin.
Qed.

(** A title accepted by [NoteBase.title]: 1 to 200 characters. *)
Definition valid_title (t : string) : Prop :=
  (1 <= char_length t <= 200)%nat.

Lemma validate_title_ok (t : string) :
  valid_title t -> validate_title (Some (JStr t)) = FOk t.
Proof.
  unfold valid_title; intros [H1 H2]. unfold validate_title.
  replace (char_length t <? 1)%nat with false by (symmetry; apply Nat.ltb_ge; lia).
  replace (200 <? char_length t)%nat with false by (symmetry; apply Nat.ltb_ge; lia).
  reflexivity.
Qed.

Definition json_of_content (ct : option string) : json :=
  match ct with Some s => JStr s | None => JNull end.

(** The body a client sends for [PUT /notes/{id}]. *)
Definition update_body (t : string) (ct : option string) (v : Z) : body :=
  [("title", JStr t); ("content", json_of_content ct); ("version", JInt v)].

Lemma parse_update_body (t : string) (ct : option string) (v : Z) :
  valid_title t -> parse_note_update (update_body t ct v) = inr (mkNoteUpdate t ct v).
Proof.
  intros Ht. unfold parse_note_update.
  assert (E1 : body_get "title" (update_body t ct v) = Some (JStr t)) by reflexivity.
  assert (E2 : body_get "content" (update_body t ct v) = Some (json_of_content ct))
    by reflexivity.
  assert (E3 : body_get "version" (update_body t ct v) = Some (JInt v)) by reflexivity.
  rewrite E1, E2, E3, (validate_title_ok t Ht). destruct ct; reflexivity.
Qed.

(** A client that sends each update with the version returned by the
    previous response. *)
Fixpoint client_chain (c nid : nat) (v : Z) (payloads : list (string * option string))
  (now : nat) (db : DB) : list Response * DB :=
  match payloads with
  | [] => ([], db)
  | (t, ct) :: rest =>
      let '(r, db1) := dispatch now db (ReqUpdate c nid (update_body t ct v)) in
      let v' := match resp_body r with NoteBody n => version n | _ => v end in
      let '(rs, db2) := client_chain c nid v' rest (S now) db1 in
      (r :: rs, db2)
  end.

Definition resp_version (r : Response) : option Z :=
  match resp_body r with NoteBody n => Some (version n) | _ => None end.

Lemma client_chain_ok (c nid : nat) (payloads : list (string * option string)) :
  Forall (fun p => valid_title (fst p)) payloads ->
  forall (now : nat) (db : DB) (n : Note),
  row db nid = Some n -> user_id n = c ->
  let '(rs, db') := client_chain c nid (version n) payloads now db in
  map status_code rs = repeat 200%Z (length payloads) /\
  map resp_version rs =
    map (fun k => Some (version n + Z.of_nat (S k))%Z) (seq 0 (length payloads)) /\
  exists n', row db' nid = Some n' /\ user_id n' = c /\
             version n' = (version n + Z.of_nat (length payloads))%Z.
Proof.
  induction payloads as [|[t ct] ps IH]; intros Hval now db n Hrow Hown.
  - simpl. repeat split. exists n. repeat split; [exact Hrow | exact Hown | lia].
  - apply Forall_cons_iff in Hval as [Ht Hps]. simpl in Ht.
    simpl. rewrite (parse_update_body t ct (version n) Ht).
    rewrite (update_note_ok c nid (mkNoteUpdate t ct (version n)) now db n Hrow Hown eq_refl). simpl.
    set (n' := mkNote nid t ct c (version n + 1) (created_at n) now).
    set (db1 := mkDB (write_row n' (notes db)) (users db)).
    assert (Hrow1 : row db1 nid = Some n')
      by (unfold row, db1; simpl; apply (row_write_row_same db nid n n' Hrow); reflexivity).
    specialize (IH Hps (S now) db1 n' Hrow1 eq_refl).
    replace (version n + 1)%Z with (version n') by reflexivity.
    destruct (client_chain c nid (version n') ps (S now) db1) as [rs db2].
    destruct IH as [Hst [Hv [n'' [Hr'' [Ho'' Hv'']]]]].
    cbn [map length repeat status_code resp_version resp_body].
    split; [rewrite Hst; reflexivity|]. split.
    + f_equal.
      rewrite Hv, <- seq_shift, map_map. apply map_ext. intros k.
      unfold n'; simpl. f_equal. lia.
    + exists n''. repeat split; [exact Hr'' | exact Ho'' | rewrite Hv''; unfold n'; simpl; lia].
Qed.

Lemma query_first_row_nodup (c nid : nat) (ns : list Note) (n : Note) :
  NoDup (map note_id ns) -> query_first c nid ns = Some n ->
  find (fun r => Nat.eqb (note_id r) nid) ns = Some n.
Proof.
  unfold query_first; induction ns as [|r ns IH]; simpl; [discriminate|].
  intros Hnd Hq. inversion Hnd as [|? ? Hnotin Hnd']; subst.
  destruct (Nat.eqb (note_id r) nid) eqn:E; simpl in Hq.
  - destruct (Nat.eqb (user_id r) c); [exact Hq|].
    exfalso. apply find_some in Hq as [Hin Heq].
    apply andb_true_iff in Heq as [Heq _]. apply Nat.eqb_eq in Heq, E.
    apply Hnotin. rewrite E, <- Heq. apply in_map. exact Hin.
  - apply IH; assumption.
Qed.

Lemma create_ok (now : nat) (db : DB) (c : nat) (b : body) (nc : NoteCreate) :
  parse_note_create b = inr nc ->
  dispatch now db (ReqCreate c b) =
  (mkResponse 201 (NoteBody (mkNote (next_note_id (notes db)) (nc_title nc)
                               (nc_content nc) c 1 now now)),
   mkDB (notes db ++ [mkNote (next_note_id (notes db)) (nc_title nc)
                        (nc_content nc) c 1 now now]) (users db)).
Proof. intros H. simpl. rewrite H. reflexivity. Qed.

(** C2: a created note has version 1; an owner who keeps presenting the
    version of the previous response gets every update accepted, the
    [k]-th one returning version [k + 1]; and on a store with unique ids,
    every accepted update ([200]) moves the stored version of its note up by
    exactly one. *)
Theorem version_starts_at_one_and_steps_by_one :
  (forall (now : nat) (db : DB) (c : nat) (b : body) (nc : NoteCreate)
          (payloads : list (string * option string)),
   parse_note_create b = inr nc ->
   Forall (fun p => valid_title (fst p)) payloads ->
   let '(r, db1) := dispatch now db (ReqCreate c b) in
   exists n0, r = mkResponse 201 (NoteBody n0) /\ version n0 = 1%Z /\
     row db1 (note_id n0) = Some n0 /\
     let '(rs, db2) := client_chain c (note_id n0) 1 payloads (S now) db1 in
     map status_code rs = repeat 200%Z (length payloads) /\
     map resp_version rs =
       map (fun k => Some (1 + Z.of_nat (S k))%Z) (seq 0 (length payloads)) /\
     exists n', row db2 (note_id n0) = Some n' /\
                version n' = (1 + Z.of_nat (length payloads))%Z) /\
  (forall (now : nat) (db : DB) (c nid : nat) (b : body),
   NoDup (map note_id (notes db)) ->
   let '(r, db') := dispatch now db (ReqUpdate c nid b) in
   status_code r = 200%Z ->
   exists n n', row db nid = Some n /\ row db' nid = Some n' /\
                version n' = (version n + 1)%Z).
Proof.
  split.
  - intros now db c b nc payloads Hb Hps. rewrite (create_ok now db c b nc Hb).
    set (n0 := mkNote (next_note_id (notes db)) (nc_title nc) (nc_content nc) c 1 now now).
    exists n0.
    assert (Hrow : row (mkDB (notes db ++ [n0]) (users db)) (note_id n0) = Some n0)
      by (unfold row; simpl; apply (find_fresh_append (notes db) n0); reflexivity).
    split; [reflexivity|]. split; [reflexivity|]. split; [exact Hrow|].
    pose proof (client_chain_ok c (note_id n0) payloads Hps (S now) _ n0 Hrow eq_refl)
      as Hc.
    destruct (client_chain _ _ _ _ _ _) as [rs db2].
    destruct Hc as [H1 [H2 [n' [H3 [_ H4]]]]].
    split; [exact H1|]. split; [exact H2|]. exists n'. split; [exact H3 | exact H4].
  - intros now db c nid b Hnd. simpl.
    destruct (parse_note_update b) as [errs|nu]; [simpl; discriminate|].
    unfold update_note.
    destruct (query_first c nid (notes db)) as [n|] eqn:Hq; [|simpl; discriminate].
    destruct (negb (Z.eqb (version n) (nu_version nu))); [simpl; discriminate|].
    intros _. pose proof (query_first_row_nodup c nid _ n Hnd Hq) as Hrow.
    pose proof (query_first_some c nid _ n Hq) as [_ [Hid _]].
    exists n. eexists. split; [exact Hrow|]. split.
    + unfold row; simpl. apply (row_write_row_same db nid n); [exact Hrow | exact Hid].
    + reflexivity.
Qed.

(** ** C3: isolation between users *)

Definition not_found_response : Response := http_exception_handler not_found_exc.

(** When the owner-scoped query finds nothing, [Get], [Update] and
    [Delete] answer [404] and leave the store as it is; an [Update] body
    that fails validation is answered before the query. *)
Lemma dispatch_query_none (now : nat) (db : DB) (c nid : nat) :
  query_first c nid (notes db) = None ->
  dispatch now db (ReqGet c nid) = (not_found_response, db) /\
  dispatch now db (ReqDelete c nid) = (not_found_response, db) /\
  (forall b, dispatch now db (ReqUpdate c nid b) =
             match parse_note_update b with
             | inl errs => (validation_exception_handler errs, db)
             | inr _ => (not_found_response, db)
             end).
Proof.
  intros Hq. simpl. unfold get_note, delete_note, update_note. rewrite Hq.
  split; [reflexivity|]. split; [reflexivity|].
  intros b. destruct (parse_note_update b); reflexivity.
Qed.

(** C3: for users [A <> B] and a note of [A], [B]'s [List] never contains
    it, and [B]'s [Get], [Update] (any body, so any expected version) and
    [Delete] on its id answer exactly as on an id that does not exist:
    [404 Note not found] for a well-formed request, the store untouched. *)
Theorem other_users_note_is_invisible (db : DB) (A B nid : nat) (n : Note) :
  NoDup (map note_id (notes db)) ->
  row db nid = Some n -> user_id n = A -> A <> B ->
  (forall now, exists ns,
     dispatch now db (ReqList B) = (mkResponse 200 (NotesBody ns), db) /\ ~ In n ns) /\
  (forall now m, row db m = None ->
     dispatch now db (ReqGet B nid) = (not_found_response, db) /\
     dispatch now db (ReqGet B m) = (not_found_response, db)) /\
  (forall now m b, row db m = None ->
     dispatch now db (ReqUpdate B nid b) = dispatch now db (ReqUpdate B m b) /\
     snd (dispatch now db (ReqUpdate B nid b)) = db /\
     (forall nu, parse_note_update b = inr nu ->
        dispatch now db (ReqUpdate B nid b) = (not_found_response, db))) /\
  (forall now m, row db m = None ->
     dispatch now db (ReqDelete B nid) = (not_found_response, db) /\
     dispatch now db (ReqDelete B m) = (not_found_response, db)).
Proof.
  intros Hnd Hrow Hown Hne.
  assert (Hq : query_first B nid (notes db) = None)
    by (apply (query_first_other B nid _ n Hnd Hrow); congruence).
  assert (Habs : forall m, row db m = None -> query_first B m (notes db) = None)
    by (intros m Hm; apply query_first_absent; exact Hm).
  split; [|split; [|split]].
  - intros now. eexists. split; [reflexivity|].
    intros Hin. apply filter_In in Hin as [_ Hb].
    apply Nat.eqb_eq in Hb. congruence.
  - intros now m Hm.
    destruct (dispatch_query_none now db B nid Hq) as [H1 _].
    destruct (dispatch_query_none now db B m (Habs m Hm)) as [H2 _].
    split; assumption.
  - intros now m b Hm.
    destruct (dispatch_query_none now db B nid Hq) as [_ [_ H1]].
    destruct (dispatch_query_none now db B m (Habs m Hm)) as [_ [_ H2]].
    rewrite H1, H2. split; [reflexivity|].
    split; [destruct (parse_note_update b); reflexivity|].
    intros nu Hb. rewrite Hb. reflexivity.
  - intros now m Hm.
    destruct (dispatch_query_none now db B nid Hq) as [_ [H1 _]].
    destruct (dispatch_query_none now db B m (Habs m Hm)) as [_ [H2 _]].
    split; assumption.
Qed.

(** ** C4: a stale version is refused *)

(** C4: on an existing note of the caller, an update presenting a version
    other than the stored one answers [409] and leaves the store exactly as
    it was; a re-fetch returns the stored note, and a retry presenting its
    version is accepted. *)
Theorem stale_version_conflict (now : nat) (db : DB) (c nid : nat) (n : Note)
  (b : body) (nu : NoteUpdate) :
  row db nid = Some n -> user_id n = c ->
  parse_note_update b = inr nu -> nu_version nu <> version n ->
  dispatch now db (ReqUpdate c nid b) = (http_exception_handler conflict_exc, db) /\
  status_code (http_exception_handler conflict_exc) = 409%Z /\
  dispatch (S now) db (ReqGet c nid) = (mkResponse 200 (NoteBody n), db) /\
  (forall b' nu', parse_note_update b' = inr nu' -> nu_version nu' = version n ->
     status_code (fst (dispatch (S (S now)) db (ReqUpdate c nid b'))) = 200%Z).
Proof.
  intros Hrow Hown Hb Hv.
  split; [|split; [reflexivity|split]].
  - simpl. rewrite Hb.
    rewrite (update_note_conflict c nid nu now db n Hrow Hown (not_eq_sym Hv)).
    reflexivity.
  - simpl. unfold get_note. rewrite (query_first_owner c nid _ n Hrow Hown). reflexivity.
  - intros b' nu' Hb' Hv'. simpl. rewrite Hb'.
    rewrite (update_note_ok c nid nu' _ db n Hrow Hown (eq_sym Hv')). reflexivity.
Qed.

(** ** C5: validation failures *)

(** A create body with an empty title. *)
Definition empty_title_body : body := [("title", JStr ""); ("content", JStr "y")].

(** C5 (code bug): every validation failure is answered by
    [validation_exception_handler], whose status is [400] whatever the
    errors, not the [422] the claim and the repository's tests expect.  A
    Create or Update body that fails validation reaches that handler with
    the store untouched. *)
Theorem validation_failures_answer_400 (now : nat) (db : DB) (c nid : nat) (b : body) :
  (forall errs : list ErrorItem,
     (status_code (validation_exception_handler errs) = 400)%Z /\
     (status_code (validation_exception_handler errs) <> 422)%Z) /\
  (forall errs, parse_note_create b = inl errs ->
     dispatch now db (ReqCreate c b) = (validation_exception_handler errs, db)) /\
  (forall errs, parse_note_update b = inl errs ->
     dispatch now db (ReqUpdate c nid b) = (validation_exception_handler errs, db)).
Proof.
  split; [intros errs; split; [reflexivity | discriminate]|].
  split; intros errs H; simpl; rewrite H; reflexivity.
Qed.

(** ** C6: Create then Get *)

Lemma validate_title_inv (j : option json) (t : string) :
  validate_title j = FOk t -> j = Some (JStr t) /\ valid_title t.
Proof.
  unfold validate_title, valid_title.
  destruct j as [[s| |]|]; try discriminate.
  destruct (char_length s <? 1)%nat eqn:H1; [discriminate|].
  destruct (200 <? char_length s)%nat eqn:H2; [discriminate|].
  intros H. injection H as <-.
  apply Nat.ltb_ge in H1, H2.
  split; [reflexivity | split; assumption].
Qed.

Lemma parse_note_create_fields (b : body) (nc : NoteCreate) :
  parse_note_create b = inr nc ->
  body_get "title" b = Some (JStr (nc_title nc)) /\ valid_title (nc_title nc) /\
  validate_content (body_get "content" b) = FOk (nc_content nc).
Proof.
  unfold parse_note_create. intros H.
  destruct (validate_title (body_get "title" b)) as [t|e] eqn:Ht;
    [|destruct (validate_content (body_get "content" b)); discriminate].
  destruct (validate_content (body_get "content" b)) as [ct|e] eqn:Hc; [|discriminate].
  injection H as <-. simpl.
  apply validate_title_inv in Ht as [Ht Hv].
  split; [exact Ht|]. split; [exact Hv | reflexivity].
Qed.

(** C6: a Create with a valid body answers [201] with a note of version
    1 whose title and content are the body's; a later Get of the same user
    on the returned id answers [200] with that same note, equal in every
    field.  A body whose title has 0 or more than 200 characters is refused
    with the validation error and nothing is stored. *)
Theorem create_then_get (now later : nat) (db : DB) (c : nat) (b : body) :
  (forall nc, parse_note_create b = inr nc ->
   exists n0 db1,
     dispatch now db (ReqCreate c b) = (mkResponse 201 (NoteBody n0), db1) /\
     version n0 = 1%Z /\
     body_get "title" b = Some (JStr (title n0)) /\
     validate_content (body_get "content" b) = FOk (content n0) /\
     dispatch later db1 (ReqGet c (note_id n0)) = (mkResponse 200 (NoteBody n0), db1)) /\
  (forall t, body_get "title" b = Some (JStr t) -> ~ valid_title t ->
   exists errs,
     dispatch now db (ReqCreate c b) = (validation_exception_handler errs, db)).
Proof.
  split.
  - intros nc Hb. pose proof (parse_note_create_fields b nc Hb) as [Ht [_ Hc]].
    rewrite (create_ok now db c b nc Hb).
    set (n0 := mkNote (next_note_id (notes db)) (nc_title nc) (nc_content nc) c 1 now now).
    exists n0, (mkDB (notes db ++ [n0]) (users db)).
    split; [reflexivity|]. split; [reflexivity|]. split; [exact Ht|]. split; [exact Hc|].
    simpl. unfold get_note.
    rewrite (query_first_owner c (note_id n0) _ n0); [reflexivity| |reflexivity].
    apply (find_fresh_append (notes db) n0). reflexivity.
  - intros t Ht Hnv. simpl.
    destruct (parse_note_create b) as [errs|nc] eqn:Hb.
    + exists errs. reflexivity.
    + exfalso. apply parse_note_create_fields in Hb as [Ht' [Hv _]].
      rewrite Ht in Ht'. injection Ht' as ->. exact (Hnv Hv).
Qed.

(** ** C7: login failures look alike *)

(** C7: whatever the hashing and token services are, a login with an
    existing username and a password that does not verify, and a login
    with a username no user has, produce the same response: [401] with the
    generic detail [Incorrect username or password]. *)
Theorem login_failures_indistinguishable
  (verify_password : string -> string -> bool) (create_access_token : nat -> string -> string)
  (db : DB) (name pw other_name other_pw : string) (u : User) :
  find (fun v => String.eqb (username v) name) (users db) = Some u ->
  verify_password pw (password_hash u) = false ->
  find (fun v => String.eqb (username v) other_name) (users db) = None ->
  login_response verify_password create_access_token (mkUserLogin name pw) db =
  login_response verify_password create_access_token (mkUserLogin other_name other_pw) db /\
  login_response verify_password create_access_token (mkUserLogin name pw) db =
  mkResponse 401 (ErrBody "Incorrect username or password" None []).
Proof.
  intros Hu Hpw Hnone. unfold login_response, login_user. simpl.
  rewrite Hu, Hpw, Hnone. split; reflexivity.
Qed.

(** ** C8: Delete *)

(** A store with one note of user 7. *)
Definition one_note_db : DB := mkDB [mkNote 1 "x" (Some "y") 7 1 0 0] [].








(** ** C9: the Update body *)

(** An update body without [content]. *)
Definition body_without_content : body := [("title", JStr "new"); ("version", JInt 1)].

(** C9 (as stated, refuted): an Update body that omits [content] is
    accepted and the note changes (its content becomes null). *)
Lemma update_without_content_accepted :
  status_code (fst (dispatch 5 one_note_db (ReqUpdate 7 1 body_without_content))) = 200%Z /\
  snd (dispatch 5 one_note_db (ReqUpdate 7 1 body_without_content)) <> one_note_db /\
  row (snd (dispatch 5 one_note_db (ReqUpdate 7 1 body_without_content))) 1 =
    Some (mkNote 1 "new" None 7 2 0 5).
Proof.
  split; [reflexivity|]. split; [|reflexivity].
  vm_compute. intros H. discriminate H.
Qed.

(** C9 (amended): an Update body without [title] or without [version] is
    refused by validation and the store is untouched; [content] may be
    omitted, and is then read as null: an accepted Update of the owner's
    note with such a body answers [200] and stores the note with content
    null (and the body's title). *)
Theorem update_body_requires_title_and_version (now : nat) (db : DB) (c nid : nat)
  (b : body) :
  ((body_get "title" b = None \/ body_get "version" b = None) ->
   exists errs, dispatch now db (ReqUpdate c nid b) = (validation_exception_handler errs, db)) /\
  (forall nu, body_get "content" b = None -> parse_note_update b = inr nu ->
   nu_content nu = None) /\
  (forall n nu, body_get "content" b = None -> parse_note_update b = inr nu ->
   row db nid = Some n -> user_id n = c -> nu_version nu = version n ->
   exists n1 db1,
     dispatch now db (ReqUpdate c nid b) = (mkResponse 200 (NoteBody n1), db1) /\
     row db1 nid = Some n1 /\ content n1 = None /\ title n1 = nu_title nu).
Proof.
  assert (Hnone : forall nu, body_get "content" b = None -> parse_note_update b = inr nu ->
                  nu_content nu = None).
  { intros nu Hc Hp. unfold parse_note_update in Hp. rewrite Hc in Hp. cbn [validate_content] in Hp.
    destruct (validate_title (body_get "title" b)); [|discriminate].
    destruct (validate_version (body_get "version" b)); [|discriminate].
    injection Hp as <-. reflexivity. }
  split; [|split; [exact Hnone|]].
  - intros Hmiss. simpl. destruct (parse_note_update b) as [errs|nu] eqn:Hb.
    + exists errs. reflexivity.
    + exfalso. unfold parse_note_update in Hb.
      destruct Hmiss as [Hm|Hm]; rewrite Hm in Hb; simpl in Hb;
        repeat match type of Hb with
               | context [match ?x with _ => _ end] => destruct x
               end; discriminate.
  - intros n nu Hc Hp Hrow Hown Hv.
    pose proof (Hnone nu Hc Hp) as Hcn.
    eexists. eexists. split.
    + simpl. rewrite Hp. rewrite (update_note_ok c nid nu now db n Hrow Hown (eq_sym Hv)).
      reflexivity.
    + split; [|split; [exact Hcn | reflexivity]].
      unfold row; simpl. apply (row_write_row_same db nid n); [exact Hrow | reflexivity].
Qed.

(** ** C10: what a Create can set *)

(** C10: a Create always stores the caller as owner, version 1 and the id
    the table assigns; the response depends on the body only through its
    [title] and [content] members, so members such as [id], [user_id] or
    [version] in the body have no effect. *)
Theorem create_owner_and_version_fixed (now : nat) (db : DB) (c : nat) (b : body) :
  (forall nc, parse_note_create b = inr nc ->
   exists n0, fst (dispatch now db (ReqCreate c b)) = mkResponse 201 (NoteBody n0) /\
     user_id n0 = c /\ version n0 = 1%Z /\ note_id n0 = next_note_id (notes db) /\
     row (snd (dispatch now db (ReqCreate c b))) (note_id n0) = Some n0) /\
  (forall b', body_get "title" b' = body_get "title" b ->
   body_get "content" b' = body_get "content" b ->
   dispatch now db (ReqCreate c b') = dispatch now db (ReqCreate c b)).
Proof.
  split.
  - intros nc Hb. rewrite (create_ok now db c b nc Hb).
    set (n0 := mkNote (next_note_id (notes db)) (nc_title nc) (nc_content nc) c 1 now now).
    exists n0. split; [reflexivity|]. split; [reflexivity|]. split; [reflexivity|].
    split; [reflexivity|].
    unfold row. simpl. apply (find_fresh_append (notes db) n0). reflexivity.
  - intros b' Ht Hc. simpl. unfold parse_note_create. rewrite Ht, Hc. reflexivity.
Qed.

(** * Witnesses: the theorems at concrete inputs *)

Definition stored_note : Note := mkNote 1 "x" (Some "y") 7 1 0 0.

Lemma concurrent_updates_one_wins_witness :
  row one_note_db 1 = Some stored_note /\ user_id stored_note = 7%nat /\
  parse_note_update (update_body "a" None 1) = inr (mkNoteUpdate "a" None 1) /\
  parse_note_update (update_body "b" (Some "z") 1) = inr (mkNoteUpdate "b" (Some "z") 1) /\
  Permutation [ReqUpdate 7 1 (update_body "a" None 1); ReqUpdate 7 1 (update_body "b" (Some "z") 1)]
              [ReqUpdate 7 1 (update_body "b" (Some "z") 1); ReqUpdate 7 1 (update_body "a" None 1)] /\
  let '(resps, db') := run_loop 3 one_note_db
        [ReqUpdate 7 1 (update_body "b" (Some "z") 1); ReqUpdate 7 1 (update_body "a" None 1)] in
  exists uw,
    (uw = mkNoteUpdate "a" None 1 \/ uw = mkNoteUpdate "b" (Some "z") 1) /\
    map status_code resps = [200%Z; 409%Z] /\
    resps = [mkResponse 200 (NoteBody (mkNote 1 (nu_title uw) (nu_content uw) 7
                                        (version stored_note + 1) (created_at stored_note) 3));
             http_exception_handler conflict_exc] /\
    row db' 1 = Some (mkNote 1 (nu_title uw) (nu_content uw) 7
                        (version stored_note + 1) (created_at stored_note) 3).
Proof.
  split; [reflexivity|]. split; [reflexivity|]. split; [reflexivity|].
  split; [reflexivity|]. split; [apply perm_swap|].
  apply (concurrent_updates_one_wins 3 one_note_db 7 1 stored_note
           (update_body "a" None 1) (update_body "b" (Some "z") 1)
           (mkNoteUpdate "a" None 1) (mkNoteUpdate "b" (Some "z") 1));
    try reflexivity.
  apply perm_swap.
Defined.

Lemma version_starts_at_one_and_steps_by_one_witness :
  parse_note_create [("title", JStr "t")] = inr (mkNoteCreate "t" None) /\
  Forall (fun p => valid_title (fst p)) [("u", None); ("v", Some "w")] /\
  NoDup (map note_id (notes one_note_db)) /\
  (let '(r, db1) := dispatch 0 (mkDB [] []) (ReqCreate 4 [("title", JStr "t")]) in
   exists n0, r = mkResponse 201 (NoteBody n0) /\ version n0 = 1%Z /\
     row db1 (note_id n0) = Some n0 /\
     let '(rs, db2) := client_chain 4 (note_id n0) 1 [("u", None); ("v", Some "w")] 1 db1 in
     map status_code rs = repeat 200%Z 2 /\
     map resp_version rs = map (fun k => Some (1 + Z.of_nat (S k))%Z) (seq 0 2) /\
     exists n', row db2 (note_id n0) = Some n' /\ version n' = (1 + Z.of_nat 2)%Z) /\
  (let '(r, db') := dispatch 2 one_note_db (ReqUpdate 7 1 (update_body "a" None 1)) in
   status_code r = 200%Z ->
   exists n n', row one_note_db 1 = Some n /\ row db' 1 = Some n' /\
                version n' = (version n + 1)%Z).
Proof.
  split; [reflexivity|].
  split; [repeat constructor; unfold valid_title; split; apply Nat.leb_le; vm_compute; reflexivity|].
  split; [repeat constructor; simpl; tauto|].
  split.
  - apply (proj1 version_starts_at_one_and_steps_by_one 0 (mkDB [] []) 4
             [("title", JStr "t")] (mkNoteCreate "t" None) [("u", None); ("v", Some "w")]);
      [reflexivity | repeat constructor; unfold valid_title; split; apply Nat.leb_le; vm_compute; reflexivity].
  - apply (proj2 version_starts_at_one_and_steps_by_one 2 one_note_db 7 1
             (update_body "a" None 1)).
    repeat constructor; simpl; tauto.
Defined.

Lemma other_users_note_is_invisible_witness :
  NoDup (map note_id (notes one_note_db)) /\ row one_note_db 1 = Some stored_note /\
  user_id stored_note = 7%nat /\ 7%nat <> 8%nat /\
  (forall now, exists ns,
     dispatch now one_note_db (ReqList 8) = (mkResponse 200 (NotesBody ns), one_note_db) /\
     ~ In stored_note ns) /\
  (forall now m, row one_note_db m = None ->
     dispatch now one_note_db (ReqGet 8 1) = (not_found_response, one_note_db) /\
     dispatch now one_note_db (ReqGet 8 m) = (not_found_response, one_note_db)) /\
  (forall now m b, row one_note_db m = None ->
     dispatch now one_note_db (ReqUpdate 8 1 b) = dispatch now one_note_db (ReqUpdate 8 m b) /\
     snd (dispatch now one_note_db (ReqUpdate 8 1 b)) = one_note_db /\
     (forall nu, parse_note_update b = inr nu ->
        dispatch now one_note_db (ReqUpdate 8 1 b) = (not_found_response, one_note_db))) /\
  (forall now m, row one_note_db m = None ->
     dispatch now one_note_db (ReqDelete 8 1) = (not_found_response, one_note_db) /\
     dispatch now one_note_db (ReqDelete 8 m) = (not_found_response, one_note_db)).
Proof.
  assert (Hnd : NoDup (map note_id (notes one_note_db)))
    by (repeat constructor; simpl; tauto).
  split; [exact Hnd|]. split; [reflexivity|]. split; [reflexivity|]. split; [lia|].
  apply (other_users_note_is_invisible one_note_db 7 8 1 stored_note Hnd);
    [reflexivity | reflexivity | lia].
Defined.

Lemma stale_version_conflict_witness :
  row one_note_db 1 = Some stored_note /\ user_id stored_note = 7%nat /\
  parse_note_update (update_body "a" None 5) = inr (mkNoteUpdate "a" None 5) /\
  nu_version (mkNoteUpdate "a" None 5) <> version stored_note /\
  dispatch 0 one_note_db (ReqUpdate 7 1 (update_body "a" None 5)) =
    (http_exception_handler conflict_exc, one_note_db) /\
  status_code (http_exception_handler conflict_exc) = 409%Z /\
  dispatch 1 one_note_db (ReqGet 7 1) = (mkResponse 200 (NoteBody stored_note), one_note_db) /\
  (forall b' nu', parse_note_update b' = inr nu' -> nu_version nu' = version stored_note ->
     status_code (fst (dispatch 2 one_note_db (ReqUpdate 7 1 b'))) = 200%Z).
Proof.
  split; [reflexivity|]. split; [reflexivity|]. split; [reflexivity|].
  split; [simpl; lia|].
  apply (stale_version_conflict 0 one_note_db 7 1 stored_note (update_body "a" None 5)
           (mkNoteUpdate "a" None 5)); [reflexivity | reflexivity | reflexivity | simpl; lia].
Defined.

Lemma validation_failures_answer_400_witness :
  parse_note_create empty_title_body =
    inl [mkErrorItem "body -> title" "String should have at least 1 character"
           "string_too_short"] /\
  dispatch 0 one_note_db (ReqCreate 7 empty_title_body) =
    (mkResponse 400 (ErrBody "Validation error" (Some "VALIDATION_ERROR")
                       [mkErrorItem "body -> title" "String should have at least 1 character"
                          "string_too_short"]),
     one_note_db).
Proof.
  split; [reflexivity|].
  apply (proj1 (proj2 (validation_failures_answer_400 0 one_note_db 7 1 empty_title_body))).
  reflexivity.
Defined.

Lemma create_then_get_witness :
  parse_note_create [("title", JStr "x"); ("content", JStr "y")] = inr (mkNoteCreate "x" (Some "y")) /\
  exists n0 db1,
    dispatch 0 one_note_db (ReqCreate 8 [("title", JStr "x"); ("content", JStr "y")]) =
      (mkResponse 201 (NoteBody n0), db1) /\
    version n0 = 1%Z /\
    body_get "title" [("title", JStr "x"); ("content", JStr "y")] = Some (JStr (title n0)) /\
    validate_content (body_get "content" [("title", JStr "x"); ("content", JStr "y")]) =
      FOk (content n0) /\
    dispatch 4 db1 (ReqGet 8 (note_id n0)) = (mkResponse 200 (NoteBody n0), db1).
Proof.
  split; [reflexivity|].
  apply (proj1 (create_then_get 0 4 one_note_db 8 [("title", JStr "x"); ("content", JStr "y")])
           (mkNoteCreate "x" (Some "y"))).
  reflexivity.
Defined.

Lemma login_failures_indistinguishable_witness :
  let db := mkDB [] [mkUser 1 "alice" "h(secret1)"] in
  find (fun v => String.eqb (username v) "alice") (users db) =
    Some (mkUser 1 "alice" "h(secret1)") /\
  String.eqb "wrong" "h(secret1)" = false /\
  find (fun v => String.eqb (username v) "bob") (users db) = None /\
  login_response (fun p h => String.eqb ("h(" ++ p ++ ")") h) (fun _ n => n)
    (mkUserLogin "alice" "wrong") db =
  login_response (fun p h => String.eqb ("h(" ++ p ++ ")") h) (fun _ n => n)
    (mkUserLogin "bob" "secret1") db /\
  login_response (fun p h => String.eqb ("h(" ++ p ++ ")") h) (fun _ n => n)
    (mkUserLogin "alice" "wrong") db =
  mkResponse 401 (ErrBody "Incorrect username or password" None []).
Proof.
  simpl. split; [reflexivity|]. split; [reflexivity|]. split; [reflexivity|].
  apply (login_failures_indistinguishable (fun p h => String.eqb ("h(" ++ p ++ ")") h)
           (fun _ n => n) (mkDB [] [mkUser 1 "alice" "h(secret1)"]) "alice" "wrong"
           "bob" "secret1" (mkUser 1 "alice" "h(secret1)")); reflexivity.
Defined.


Lemma update_body_requires_title_and_version_witness :
  body_get "version" [("title", JStr "x")] = None /\
  (exists errs, dispatch 0 one_note_db (ReqUpdate 7 1 [("title", JStr "x")]) =
                (validation_exception_handler errs, one_note_db)) /\
  parse_note_update body_without_content = inr (mkNoteUpdate "new" None 1) /\
  nu_content (mkNoteUpdate "new" None 1) = None /\
  exists n1 db1,
    dispatch 5 one_note_db (ReqUpdate 7 1 body_without_content) =
      (mkResponse 200 (NoteBody n1), db1) /\
    row db1 1 = Some n1 /\ content n1 = None /\ title n1 = "new".
Proof.
  split; [reflexivity|]. split.
  - apply (proj1 (update_body_requires_title_and_version 0 one_note_db 7 1
                    [("title", JStr "x")])).
    right. reflexivity.
  - split; [reflexivity|]. split.
    + apply (proj1 (proj2 (update_body_requires_title_and_version 5 one_note_db 7 1
                             body_without_content))); reflexivity.
    + apply (proj2 (proj2 (update_body_requires_title_and_version 5 one_note_db 7 1
                             body_without_content)) stored_note (mkNoteUpdate "new" None 1));
        reflexivity.
Defined.

Lemma create_owner_and_version_fixed_witness :
  parse_note_create [("title", JStr "x")] = inr (mkNoteCreate "x" None) /\
  (exists n0, fst (dispatch 0 one_note_db (ReqCreate 8 [("title", JStr "x")])) =
                mkResponse 201 (NoteBody n0) /\
     user_id n0 = 8%nat /\ version n0 = 1%Z /\ note_id n0 = next_note_id (notes one_note_db) /\
     row (snd (dispatch 0 one_note_db (ReqCreate 8 [("title", JStr "x")]))) (note_id n0) =
       Some n0) /\
  dispatch 0 one_note_db
    (ReqCreate 8 [("id", JInt 1); ("title", JStr "x"); ("user_id", JInt 7); ("version", JInt 9)]) =
  dispatch 0 one_note_db (ReqCreate 8 [("title", JStr "x")]).
Proof.
  split; [reflexivity|]. split.
  - apply (proj1 (create_owner_and_version_fixed 0 one_note_db 8 [("title", JStr "x")])
             (mkNoteCreate "x" None)).
    reflexivity.
  - apply (proj2 (create_owner_and_version_fixed 0 one_note_db 8 [("title", JStr "x")]));
      reflexivity.
Defined.

(** * Further coverage: registration, login requests, composition of the
      note handlers *)

(** ** Registration ([app/routers/auth.py], [app/schemas/user.py]) *)

Record UserCreate := mkUserCreate { uc_username : string; uc_password : string }.

(** [username: str = Field(..., min_length=3, max_length=50)] *)
Definition validate_username (j : option json) : field_result string :=
  match j with
  | None => FErr (mkErrorItem "body -> username" "Field required" "missing")
  | Some (JStr s) =>
      if (char_length s <? 3)%nat
      then FErr (mkErrorItem "body -> username"
                   "String should have at least 3 characters" "string_too_short")
      else if (50 <? char_length s)%nat
      then FErr (mkErrorItem "body -> username"
                   "String should have at most 50 characters" "string_too_long")
      else FOk s
  | Some _ => FErr (mkErrorItem "body -> username" "Input should be a valid string" "string_type")
  end.

(** [password: str = Field(..., min_length=6)] *)
Definition validate_password (j : option json) : field_result string :=
  match j with
  | None => FErr (mkErrorItem "body -> password" "Field required" "missing")
  | Some (JStr s) =>
      if (char_length s <? 6)%nat
      then FErr (mkErrorItem "body -> password"
                   "String should have at least 6 characters" "string_too_short")
      else FOk s
  | Some _ => FErr (mkErrorItem "body -> password" "Input should be a valid string" "string_type")
  end.

(** A required plain [str] field, as in [UserLogin]. *)
Definition validate_str (loc : string) (j : option json) : field_result string :=
  match j with
  | None => FErr (mkErrorItem loc "Field required" "missing")
  | Some (JStr s) => FOk s
  | Some _ => FErr (mkErrorItem loc "Input should be a valid string" "string_type")
  end.

Definition parse_user_create (b : body) : list ErrorItem + UserCreate :=
  match validate_username (body_get "username" b),
        validate_password (body_get "password" b) with
  | FOk u, FOk p => inr (mkUserCreate u p)
  | ru, rp => inl (errs_of ru ++ errs_of rp)%list
  end.

Definition parse_user_login (b : body) : list ErrorItem + UserLogin :=
  match validate_str "body -> username" (body_get "username" b),
        validate_str "body -> password" (body_get "password" b) with
  | FOk u, FOk p => inr (mkUserLogin u p)
  | ru, rp => inl (errs_of ru ++ errs_of rp)%list
  end.

(** Modelled from the spec: the [users] table ([app/models/user.py] is not
    among the sources).  A new row gets one more than the largest id, and
    [username] is unique: inserting a username already present makes the
    commit raise [IntegrityError] and nothing is stored. *)
Definition next_user_id (us : list User) : nat :=
  S (fold_right Nat.max 0 (map uid us)).

Definition insert_user (name hashed : string) (db : DB) : option (User * DB) :=
  match find (fun u => String.eqb (username u) name) (users db) with
  | Some _ => None
  | None =>
      let u := mkUser (next_user_id (users db)) name hashed in
      Some (u, mkDB (notes db) (users db ++ [u]))
  end.

(** [register_user]: hash the password (the salted hash of this call is
    [hash_password]), insert, and map [IntegrityError] to [400]. *)
Definition register_user (hash_password : string -> string) (user_data : UserCreate)
  (db : DB) : (HTTPException + (string * nat)) * DB :=
  let hashed_password := hash_password (uc_password user_data) in
  match insert_user (uc_username user_data) hashed_password db with
  | None => (inl (http_exc 400 "Username already exists"), db)
  | Some (db_user, db') => (inr ("User created successfully", uid db_user), db')
  end.

(** The answer of [POST /auth/register]: [201 {message, user_id}] or an
    error response. *)
Inductive RegisterResponse :=
| RegCreated (message : string) (user_id : nat)
| RegError (r : Response).

Definition dispatch_register (hash_password : string -> string) (b : body) (db : DB)
  : RegisterResponse * DB :=
  match parse_user_create b with
  | inl errs => (RegError (validation_exception_handler errs), db)
  | inr uc =>
      match register_user hash_password uc db with
      | (inl e, db') => (RegError (http_exception_handler e), db')
      | (inr (m, i), db') => (RegCreated m i, db')
      end
  end.

(** [POST /auth/login] *)
Definition dispatch_login (verify_password : string -> string -> bool)
  (create_access_token : nat -> string -> string) (b : body) (db : DB) : Response :=
  match parse_user_login b with
  | inl errs => validation_exception_handler errs
  | inr creds => login_response verify_password create_access_token creds db
  end.

(** ** Lemmas for the note handlers *)

Lemma map_note_id_write_row (n' : Note) (ns : list Note) :
  map note_id (write_row n' ns) = map note_id ns.
Proof.
  induction ns as [|r ns IH]; simpl; [reflexivity|].
  destruct (Nat.eqb (note_id r) (note_id n')) eqn:E; simpl; rewrite IH; [|reflexivity].
  apply Nat.eqb_eq in E. rewrite E. reflexivity.
Qed.

Lemma nodup_filter_ids (f : Note -> bool) (ns : list Note) :
  NoDup (map note_id ns) -> NoDup (map note_id (filter f ns)).
Proof.
  induction ns as [|r ns IH]; simpl; intros Hnd; [constructor|].
  inversion Hnd as [|? ? Hnotin Hnd']; subst.
  destruct (f r); simpl; [|apply IH; exact Hnd'].
  constructor; [|apply IH; exact Hnd'].
  intros Hin. apply Hnotin. apply in_map_iff in Hin as [x [Hx Hin]].
  apply filter_In in Hin as [Hin _]. rewrite <- Hx. apply in_map. exact Hin.
Qed.

Lemma nodup_same_id (ns : list Note) (a b : Note) :
  NoDup (map note_id ns) -> In a ns -> In b ns -> note_id a = note_id b -> a = b.
Proof.
  induction ns as [|r ns IH]; simpl; [tauto|].
  intros Hnd Ha Hb Hid. inversion Hnd as [|? ? Hnotin Hnd']; subst.
  destruct Ha as [<-|Ha], Hb as [<-|Hb]; [reflexivity| | |apply IH; assumption].
  - exfalso. apply Hnotin. rewrite Hid. apply in_map. exact Hb.
  - exfalso. apply Hnotin. rewrite <- Hid. apply in_map. exact Ha.
Qed.

(** Filtering by owner [B] is unaffected by writing or deleting rows whose
    id only [B]-foreign rows carry. *)
Lemma filter_owner_write_row (B : nat) (n' : Note) (ns : list Note) :
  user_id n' <> B ->
  (forall r, In r ns -> note_id r = note_id n' -> user_id r <> B) ->
  filter (fun x => Nat.eqb (user_id x) B) (write_row n' ns) =
  filter (fun x => Nat.eqb (user_id x) B) ns.
Proof.
  intros Hn'. induction ns as [|r ns IH]; simpl; intros Hr; [reflexivity|].
  rewrite IH by (intros x Hx; apply Hr; right; exact Hx).
  destruct (Nat.eqb (note_id r) (note_id n')) eqn:E; [|reflexivity].
  apply Nat.eqb_eq in E.
  assert (H1 : Nat.eqb (user_id n') B = false) by (apply Nat.eqb_neq; exact Hn').
  assert (H2 : Nat.eqb (user_id r) B = false)
    by (apply Nat.eqb_neq; apply Hr; [left; reflexivity | exact E]).
  simpl. rewrite H1, H2. reflexivity.
Qed.

Lemma filter_owner_delete_row (B nid : nat) (ns : list Note) :
  (forall r, In r ns -> note_id r = nid -> user_id r <> B) ->
  filter (fun x => Nat.eqb (user_id x) B) (delete_row nid ns) =
  filter (fun x => Nat.eqb (user_id x) B) ns.
Proof.
  induction ns as [|r ns IH]; simpl; intros Hr; [reflexivity|].
  rewrite <- IH by (intros x Hx; apply Hr; right; exact Hx).
  destruct (Nat.eqb (note_id r) nid) eqn:E; simpl; [|reflexivity].
  apply Nat.eqb_eq in E.
  assert (H2 : Nat.eqb (user_id r) B = false)
    by (apply Nat.eqb_neq; apply Hr; [left; reflexivity | exact E]).
  rewrite H2. reflexivity.
Qed.

Lemma find_app_left (f : Note -> bool) (ns ms : list Note) (x : Note) :
  find f ns = Some x -> find f (ns ++ ms) = Some x.
Proof.
  induction ns as [|r ns IH]; simpl; [discriminate|].
  destruct (f r); [tauto | exact IH].
Qed.

(** The caller of a request. *)
Definition caller_of (r : Request) : nat :=
  match r with
  | ReqCreate c _ | ReqList c | ReqGet c _ | ReqUpdate c _ _ | ReqDelete c _ => c
  end.

(** X1: every request keeps the primary keys of the [notes] table pairwise
    distinct: Create takes an id above all present ones, Update rewrites a
    row under its own id, Delete only removes rows. *)
Theorem dispatch_keeps_ids_unique (now : nat) (db : DB) (r : Request) :
  NoDup (map note_id (notes db)) ->
  NoDup (map note_id (notes (snd (dispatch now db r)))).
Proof.
  intros Hnd. destruct r as [c b|c|c m|c m b|c m]; simpl.
  - destruct (parse_note_create b) as [errs|nc]; simpl; [exact Hnd|].
    rewrite map_app. simpl.
    apply (Permutation_NoDup (Permutation_cons_append _ _)).
    constructor; [|exact Hnd].
    intros Hin. apply in_map_iff in Hin as [x [Hx Hin]].
    pose proof (next_note_id_gt (notes db) x Hin). lia.
  - exact Hnd.
  - unfold get_note. destruct (query_first c m (notes db)); exact Hnd.
  - destruct (parse_note_update b) as [errs|nu]; simpl; [exact Hnd|].
    unfold update_note. destruct (query_first c m (notes db)) as [n|]; [|exact Hnd].
    destruct (negb (Z.eqb (version n) (nu_version nu))); simpl; [exact Hnd|].
    rewrite map_note_id_write_row. exact Hnd.
  - unfold delete_note. destruct (query_first c m (notes db)) as [n|]; [|exact Hnd].
    simpl. apply nodup_filter_ids. exact Hnd.
Qed.

(** X2: no request of a user [A] changes what another user [B] sees in
    [GET /notes]: [B]'s list is the same before and after (ids unique). *)
Theorem requests_of_others_keep_list (now later : nat) (db : DB) (r : Request) (B : nat) :
  NoDup (map note_id (notes db)) -> caller_of r <> B ->
  fst (dispatch later (snd (dispatch now db r)) (ReqList B)) =
  fst (dispatch later db (ReqList B)).
Proof.
  intros Hnd Hne. simpl. f_equal. f_equal.
  destruct r as [c b|c|c m|c m b|c m]; simpl in Hne |- *.
  - destruct (parse_note_create b) as [errs|nc]; simpl; [reflexivity|].
    rewrite filter_app. simpl.
    assert (Hc : Nat.eqb c B = false) by (apply Nat.eqb_neq; exact Hne).
    rewrite Hc, app_nil_r. reflexivity.
  - reflexivity.
  - unfold get_note. destruct (query_first c m (notes db)); reflexivity.
  - destruct (parse_note_update b) as [errs|nu]; simpl; [reflexivity|].
    unfold update_note. destruct (query_first c m (notes db)) as [n|] eqn:Hq;
      [|reflexivity].
    destruct (negb (Z.eqb (version n) (nu_version nu))); simpl; [reflexivity|].
    pose proof (query_first_some c m _ n Hq) as [Hin [_ Hown]].
    apply filter_owner_write_row; simpl; [congruence|].
    intros x Hx Hid. rewrite (nodup_same_id _ x n Hnd Hx Hin Hid). congruence.
  - unfold delete_note. destruct (query_first c m (notes db)) as [n|] eqn:Hq;
      [|reflexivity].
    pose proof (query_first_some c m _ n Hq) as [Hin [_ Hown]]. simpl.
    apply filter_owner_delete_row.
    intros x Hx Hid. rewrite (nodup_same_id _ x n Hnd Hx Hin Hid). congruence.
Qed.

(** X3: an accepted update keeps the note's id, owner and creation time,
    takes title and content from the body, bumps the version, stamps
    [updated_at], and a later Get returns exactly the note the update
    answered with. *)
Theorem update_then_get (now later : nat) (db : DB) (c nid : nat) (n : Note)
  (b : body) (nu : NoteUpdate) :
  row db nid = Some n -> user_id n = c ->
  parse_note_update b = inr nu -> nu_version nu = version n ->
  exists n' db',
    dispatch now db (ReqUpdate c nid b) = (mkResponse 200 (NoteBody n'), db') /\
    note_id n' = note_id n /\ user_id n' = user_id n /\ created_at n' = created_at n /\
    title n' = nu_title nu /\ content n' = nu_content nu /\
    version n' = (version n + 1)%Z /\ updated_at n' = now /\
    dispatch later db' (ReqGet c nid) = (mkResponse 200 (NoteBody n'), db').
Proof.
  intros Hrow Hown Hb Hv. pose proof (row_some _ _ _ Hrow) as [_ Hid].
  simpl. rewrite Hb, (update_note_ok c nid nu now db n Hrow Hown (eq_sym Hv)). simpl.
  set (n' := mkNote nid (nu_title nu) (nu_content nu) c (version n + 1) (created_at n) now).
  exists n', (mkDB (write_row n' (notes db)) (users db)).
  split; [reflexivity|].
  repeat split; try reflexivity; simpl; try congruence.
  unfold get_note. rewrite (query_first_owner c nid _ n'); [reflexivity | | reflexivity].
  apply (row_write_row_same db nid n n' Hrow). reflexivity.
Qed.

(** X4: Update and Delete on id [nid] leave every row under another id as
    it was, and Create leaves every existing row as it was. *)
Theorem requests_keep_other_rows (now : nat) (db : DB) (c nid m : nat) :
  m <> nid ->
  (forall b, row (snd (dispatch now db (ReqUpdate c nid b))) m = row db m) /\
  row (snd (dispatch now db (ReqDelete c nid))) m = row db m /\
  (forall b x, row db m = Some x -> row (snd (dispatch now db (ReqCreate c b))) m = Some x).
Proof.
  intros Hne. split; [|split].
  - intros b. simpl. destruct (parse_note_update b) as [errs|nu]; simpl; [reflexivity|].
    unfold update_note. destruct (query_first c nid (notes db)) as [n|] eqn:Hq;
      [|reflexivity].
    destruct (negb (Z.eqb (version n) (nu_version nu))); simpl; [reflexivity|].
    pose proof (query_first_some c nid _ n Hq) as [_ [Hid _]].
    unfold row. simpl. apply find_write_row_other. simpl. congruence.
  - simpl. unfold delete_note. destruct (query_first c nid (notes db)) as [n|] eqn:Hq;
      [|reflexivity].
    pose proof (query_first_some c nid _ n Hq) as [_ [Hid _]].
    unfold row. simpl. apply find_delete_row_other. congruence.
  - intros b x Hx. simpl. destruct (parse_note_create b) as [errs|nc]; simpl; [exact Hx|].
    unfold row. simpl. apply find_app_left. exact Hx.
Qed.

(** X5: a Create appends the new note at the end of the caller's
    [GET /notes] list. *)
Theorem create_appends_to_own_list (now later : nat) (db : DB) (c : nat) (b : body)
  (nc : NoteCreate) :
  parse_note_create b = inr nc ->
  exists n0 ns,
    fst (dispatch now db (ReqCreate c b)) = mkResponse 201 (NoteBody n0) /\
    fst (dispatch later db (ReqList c)) = mkResponse 200 (NotesBody ns) /\
    fst (dispatch later (snd (dispatch now db (ReqCreate c b))) (ReqList c)) =
      mkResponse 200 (NotesBody (ns ++ [n0])).
Proof.
  intros Hb. rewrite (create_ok now db c b nc Hb). simpl.
  eexists. eexists. split; [reflexivity|]. split; [reflexivity|].
  rewrite filter_app. simpl. rewrite Nat.eqb_refl. reflexivity.
Qed.

Lemma filter_comm {A} (f g : A -> bool) (l : list A) :
  filter f (filter g l) = filter g (filter f l).
Proof.
  induction l as [|x l IH]; simpl; [reflexivity|].
  destruct (g x) eqn:Eg, (f x) eqn:Ef; simpl; rewrite ?Eg, ?Ef, IH; reflexivity.
Qed.

(** X6: the owner's Delete takes the note out of the owner's list and
    leaves the rest of the list, in order. *)
Theorem delete_removes_from_own_list (now later : nat) (db : DB) (c nid : nat) (n : Note) :
  row db nid = Some n -> user_id n = c ->
  exists ns,
    fst (dispatch later db (ReqList c)) = mkResponse 200 (NotesBody ns) /\ In n ns /\
    fst (dispatch later (snd (dispatch now db (ReqDelete c nid))) (ReqList c)) =
      mkResponse 200 (NotesBody (filter (fun x => negb (Nat.eqb (note_id x) nid)) ns)) /\
    ~ In n (filter (fun x => negb (Nat.eqb (note_id x) nid)) ns).
Proof.
  intros Hrow Hown. pose proof (row_some _ _ _ Hrow) as [Hin Hid].
  eexists. split; [reflexivity|]. split.
  - apply filter_In. split; [exact Hin | apply Nat.eqb_eq; exact Hown].
  - split.
    + simpl. unfold delete_note. rewrite (query_first_owner c nid _ n Hrow Hown). simpl.
      rewrite Hid. unfold delete_row. rewrite filter_comm. reflexivity.
    + intros H. apply filter_In in H as [_ H]. rewrite Hid, Nat.eqb_refl in H.
      discriminate.
Qed.

(** ** Registration and login *)

Lemma validate_username_inv (j : option json) (s : string) :
  validate_username j = FOk s -> j = Some (JStr s).
Proof.
  unfold validate_username. destruct j as [[x| |]|]; try discriminate.
  destruct (char_length x <? 3)%nat; [discriminate|].
  destruct (50 <? char_length x)%nat; [discriminate|].
  intros H. injection H as <-. reflexivity.
Qed.

Lemma validate_password_inv (j : option json) (s : string) :
  validate_password j = FOk s -> j = Some (JStr s).
Proof.
  unfold validate_password. destruct j as [[x| |]|]; try discriminate.
  destruct (char_length x <? 6)%nat; [discriminate|].
  intros H. injection H as <-. reflexivity.
Qed.

(** A body accepted by [UserCreate] is accepted by [UserLogin] with the
    same credentials. *)
Lemma parse_user_create_login (b : body) (uc : UserCreate) :
  parse_user_create b = inr uc ->
  parse_user_login b = inr (mkUserLogin (uc_username uc) (uc_password uc)).
Proof.
  unfold parse_user_create, parse_user_login. intros H.
  destruct (validate_username (body_get "username" b)) as [u|e] eqn:Hu;
    [|destruct (validate_password (body_get "password" b)); discriminate].
  destruct (validate_password (body_get "password" b)) as [p|e] eqn:Hp; [|discriminate].
  injection H as <-. apply validate_username_inv in Hu. apply validate_password_inv in Hp.
  rewrite Hu, Hp. reflexivity.
Qed.

Lemma find_app_single {A} (f : A -> bool) (l : list A) (x : A) :
  find f l = None -> find f (l ++ [x]) = if f x then Some x else None.
Proof.
  induction l as [|y l IH]; simpl; [reflexivity|].
  destruct (f y); [discriminate | exact IH].
Qed.

(** X8: registering a username that is already taken answers
    [400 Username already exists] and stores nothing. *)
Theorem register_duplicate_username (hash_password : string -> string) (db : DB)
  (b : body) (uc : UserCreate) (u : User) :
  parse_user_create b = inr uc ->
  find (fun v => String.eqb (username v) (uc_username uc)) (users db) = Some u ->
  dispatch_register hash_password b db =
  (RegError (mkResponse 400 (ErrBody "Username already exists" None [])), db).
Proof.
  intros Hb Hu. unfold dispatch_register, register_user, insert_user.
  rewrite Hb, Hu. reflexivity.
Qed.

(** X9: a registration whose username has fewer than 3 or more than 50
    characters, or whose password has fewer than 6, is refused with the
    validation error ([400], [VALIDATION_ERROR]) whose list holds pydantic's
    [string_too_short] or [string_too_long] entry for that field, and
    nothing is stored. *)
Theorem register_rejects_bad_lengths (hash_password : string -> string) (db : DB) (b : body) :
  (forall s, body_get "username" b = Some (JStr s) -> (char_length s < 3)%nat ->
   exists errs,
     dispatch_register hash_password b db =
       (RegError (mkResponse 400 (ErrBody "Validation error" (Some "VALIDATION_ERROR") errs)), db) /\
     In (mkErrorItem "body -> username" "String should have at least 3 characters"
           "string_too_short") errs) /\
  (forall s, body_get "username" b = Some (JStr s) -> (50 < char_length s)%nat ->
   exists errs,
     dispatch_register hash_password b db =
       (RegError (mkResponse 400 (ErrBody "Validation error" (Some "VALIDATION_ERROR") errs)), db) /\
     In (mkErrorItem "body -> username" "String should have at most 50 characters"
           "string_too_long") errs) /\
  (forall s, body_get "password" b = Some (JStr s) -> (char_length s < 6)%nat ->
   exists errs,
     dispatch_register hash_password b db =
       (RegError (mkResponse 400 (ErrBody "Validation error" (Some "VALIDATION_ERROR") errs)), db) /\
     In (mkErrorItem "body -> password" "String should have at least 6 characters"
           "string_too_short") errs).
Proof.
  unfold dispatch_register, parse_user_create. split; [|split].
  - intros s Hs Hl. rewrite Hs.
    assert (Hv : validate_username (Some (JStr s)) =
                 FErr (mkErrorItem "body -> username" "String should have at least 3 characters"
                         "string_too_short")).
    { unfold validate_username.
      replace (char_length s <? 3)%nat with true by (symmetry; apply Nat.ltb_lt; exact Hl).
      reflexivity. }
    rewrite Hv. destruct (validate_password (body_get "password" b));
      eexists; (split; [reflexivity|]); simpl; tauto.
  - intros s Hs Hl. rewrite Hs.
    assert (Hv : validate_username (Some (JStr s)) =
                 FErr (mkErrorItem "body -> username" "String should have at most 50 characters"
                         "string_too_long")).
    { unfold validate_username.
      replace (char_length s <? 3)%nat with false by (symmetry; apply Nat.ltb_ge; lia).
      replace (50 <? char_length s)%nat with true by (symmetry; apply Nat.ltb_lt; exact Hl).
      reflexivity. }
    rewrite Hv. destruct (validate_password (body_get "password" b));
      eexists; (split; [reflexivity|]); simpl; tauto.
  - intros s Hs Hl. rewrite Hs.
    assert (Hv : validate_password (Some (JStr s)) =
                 FErr (mkErrorItem "body -> password"
                         "String should have at least 6 characters" "string_too_short")).
    { unfold validate_password.
      replace (char_length s <? 6)%nat with true by (symmetry; apply Nat.ltb_lt; exact Hl).
      reflexivity. }
    rewrite Hv. destruct (validate_username (body_get "username" b));
      eexists; (split; [reflexivity|]); simpl; rewrite ?in_app_iff; simpl; tauto.
Qed.

(** X10: registering a new username and then logging in with the same
    body: the registration answers [201] with the new user id, and the
    login answers [200] with a bearer token issued for that id and
    username, given a hash that verifies against its own password. *)
Theorem register_then_login (hash_password : string -> string)
  (verify_password : string -> string -> bool) (create_access_token : nat -> string -> string)
  (db : DB) (b : body) (uc : UserCreate) :
  parse_user_create b = inr uc ->
  verify_password (uc_password uc) (hash_password (uc_password uc)) = true ->
  find (fun v => String.eqb (username v) (uc_username uc)) (users db) = None ->
  let '(resp, db') := dispatch_register hash_password b db in
  resp = RegCreated "User created successfully" (next_user_id (users db)) /\
  dispatch_login verify_password create_access_token b db' =
  mkResponse 200 (TokenBody (create_access_token (next_user_id (users db)) (uc_username uc))
                    "bearer").
Proof.
  intros Hb Hver Hnone.
  unfold dispatch_register, register_user, insert_user. rewrite Hb, Hnone. simpl.
  split; [reflexivity|].
  unfold dispatch_login. rewrite (parse_user_create_login b uc Hb).
  unfold login_response, login_user. simpl.
  rewrite (find_app_single _ _ _ Hnone). simpl. rewrite String.eqb_refl.
  simpl. rewrite Hver. reflexivity.
Qed.

(** ** Witnesses for the further properties *)

Definition two_user_db : DB :=
  mkDB [mkNote 1 "x" (Some "y") 7 1 0 0; mkNote 2 "p" None 8 3 0 0]
       [mkUser 7 "alice" "h(secret1)"].

Lemma dispatch_keeps_ids_unique_witness :
  NoDup (map note_id (notes two_user_db)) /\
  NoDup (map note_id (notes (snd (dispatch 0 two_user_db (ReqCreate 7 [("title", JStr "n")]))))).
Proof.
  assert (H : NoDup (map note_id (notes two_user_db))) by (repeat constructor; simpl; lia).
  split; [exact H | apply dispatch_keeps_ids_unique; exact H].
Defined.

Lemma requests_of_others_keep_list_witness :
  NoDup (map note_id (notes two_user_db)) /\ caller_of (ReqDelete 7 1) <> 8%nat /\
  fst (dispatch 1 (snd (dispatch 0 two_user_db (ReqDelete 7 1))) (ReqList 8)) =
  fst (dispatch 1 two_user_db (ReqList 8)).
Proof.
  assert (H : NoDup (map note_id (notes two_user_db))) by (repeat constructor; simpl; lia).
  split; [exact H|]. split; [simpl; lia|].
  apply requests_of_others_keep_list; [exact H | simpl; lia].
Defined.

Lemma update_then_get_witness :
  row two_user_db 2 = Some (mkNote 2 "p" None 8 3 0 0) /\
  parse_note_update (update_body "q" (Some "r") 3) = inr (mkNoteUpdate "q" (Some "r") 3) /\
  exists n' db',
    dispatch 5 two_user_db (ReqUpdate 8 2 (update_body "q" (Some "r") 3)) =
      (mkResponse 200 (NoteBody n'), db') /\
    note_id n' = 2%nat /\ user_id n' = 8%nat /\ created_at n' = 0%nat /\
    title n' = "q" /\ content n' = Some "r" /\ version n' = 4%Z /\ updated_at n' = 5%nat /\
    dispatch 6 db' (ReqGet 8 2) = (mkResponse 200 (NoteBody n'), db').
Proof.
  split; [reflexivity|]. split; [reflexivity|].
  apply (update_then_get 5 6 two_user_db 8 2 (mkNote 2 "p" None 8 3 0 0)
           (update_body "q" (Some "r") 3) (mkNoteUpdate "q" (Some "r") 3)); reflexivity.
Defined.

Lemma requests_keep_other_rows_witness :
  2%nat <> 1%nat /\
  row (snd (dispatch 0 two_user_db (ReqDelete 7 1))) 2 = row two_user_db 2 /\
  row (snd (dispatch 0 two_user_db (ReqCreate 7 [("title", JStr "n")]))) 2 =
    Some (mkNote 2 "p" None 8 3 0 0).
Proof.
  split; [lia|].
  destruct (requests_keep_other_rows 0 two_user_db 7 1 2) as [_ [H1 H2]]; [lia|].
  split; [exact H1 | apply H2; reflexivity].
Defined.

Lemma create_appends_to_own_list_witness :
  parse_note_create [("title", JStr "n")] = inr (mkNoteCreate "n" None) /\
  exists n0 ns,
    fst (dispatch 0 two_user_db (ReqCreate 7 [("title", JStr "n")])) =
      mkResponse 201 (NoteBody n0) /\
    fst (dispatch 1 two_user_db (ReqList 7)) = mkResponse 200 (NotesBody ns) /\
    fst (dispatch 1 (snd (dispatch 0 two_user_db (ReqCreate 7 [("title", JStr "n")])))
           (ReqList 7)) = mkResponse 200 (NotesBody (ns ++ [n0])).
Proof.
  split; [reflexivity|].
  apply (create_appends_to_own_list 0 1 two_user_db 7 [("title", JStr "n")]
           (mkNoteCreate "n" None)). reflexivity.
Defined.

Lemma delete_removes_from_own_list_witness :
  row two_user_db 1 = Some stored_note /\ user_id stored_note = 7%nat /\
  exists ns,
    fst (dispatch 1 two_user_db (ReqList 7)) = mkResponse 200 (NotesBody ns) /\
    In stored_note ns /\
    fst (dispatch 1 (snd (dispatch 0 two_user_db (ReqDelete 7 1))) (ReqList 7)) =
      mkResponse 200 (NotesBody (filter (fun x => negb (Nat.eqb (note_id x) 1)) ns)) /\
    ~ In stored_note (filter (fun x => negb (Nat.eqb (note_id x) 1)) ns).
Proof.
  split; [reflexivity|]. split; [reflexivity|].
  apply (delete_removes_from_own_list 0 1 two_user_db 7 1 stored_note); reflexivity.
Defined.

Lemma register_duplicate_username_witness :
  parse_user_create [("username", JStr "alice"); ("password", JStr "secret1")] =
    inr (mkUserCreate "alice" "secret1") /\
  find (fun v => String.eqb (username v) "alice") (users two_user_db) =
    Some (mkUser 7 "alice" "h(secret1)") /\
  dispatch_register (fun p => "h(" ++ p ++ ")") [("username", JStr "alice"); ("password", JStr "secret1")]
    two_user_db =
  (RegError (mkResponse 400 (ErrBody "Username already exists" None [])), two_user_db).
Proof.
  split; [reflexivity|]. split; [reflexivity|].
  apply (register_duplicate_username _ two_user_db _ (mkUserCreate "alice" "secret1")
           (mkUser 7 "alice" "h(secret1)")); reflexivity.
Defined.

Lemma register_rejects_bad_lengths_witness :
  body_get "username" [("username", JStr "ab"); ("password", JStr "x")] = Some (JStr "ab") /\
  (char_length "ab" < 3)%nat /\
  exists errs,
    dispatch_register (fun p => p) [("username", JStr "ab"); ("password", JStr "x")]
      two_user_db =
      (RegError (mkResponse 400 (ErrBody "Validation error" (Some "VALIDATION_ERROR") errs)),
       two_user_db) /\
    In (mkErrorItem "body -> username" "String should have at least 3 characters"
          "string_too_short") errs.
Proof.
  split; [reflexivity|]. split; [apply Nat.ltb_lt; vm_compute; reflexivity|].
  apply (proj1 (register_rejects_bad_lengths (fun p => p) two_user_db
                  [("username", JStr "ab"); ("password", JStr "x")]) "ab");
    [reflexivity | apply Nat.ltb_lt; vm_compute; reflexivity].
Defined.

Lemma register_then_login_witness :
  parse_user_create [("username", JStr "bobby"); ("password", JStr "secret2")] =
    inr (mkUserCreate "bobby" "secret2") /\
  String.eqb ("h(" ++ "secret2" ++ ")") ("h(" ++ "secret2" ++ ")") = true /\
  find (fun v => String.eqb (username v) "bobby") (users two_user_db) = None /\
  let '(resp, db') := dispatch_register (fun p => "h(" ++ p ++ ")")
                        [("username", JStr "bobby"); ("password", JStr "secret2")] two_user_db in
  resp = RegCreated "User created successfully" (next_user_id (users two_user_db)) /\
  dispatch_login (fun p h => String.eqb ("h(" ++ p ++ ")") h) (fun i n => n)
    [("username", JStr "bobby"); ("password", JStr "secret2")] db' =
  mkResponse 200 (TokenBody "bobby" "bearer").
Proof.
  split; [reflexivity|]. split; [reflexivity|]. split; [reflexivity|].
  apply (register_then_login (fun p => "h(" ++ p ++ ")")
           (fun p h => String.eqb ("h(" ++ p ++ ")") h) (fun i n => n) two_user_db
           [("username", JStr "bobby"); ("password", JStr "secret2")]
           (mkUserCreate "bobby" "secret2")); reflexivity.
Defined.
